(** * PagerView: the container component of react-native-pager-view

    A shallow embedding of [src/PagerView.tsx].  The class [PagerView] is a
    React component with three mutable fields ([isScrolling], [pagerView],
    [store]), three native-event handlers, three imperative commands, a
    responder-capture predicate, a layout-direction getter and [render].

    Every method is embedded as a computation in a small state monad over
    a [Runtime]: the component instance [this] together with the [World]
    around it (the platform environment, the heap of page-state stores and
    the log of calls that leave the file: user callbacks, native commands,
    keyboard dismissal, store calls and listener notifications).

    A user callback is an opaque function of the application: calling one
    is recorded in the log with its argument, the call either returns
    normally or throws, and it does not reach back into the container.
    The handlers have no [try]: an exception thrown by a callback leaves
    the handler at once.  A store subscriber is recorded likewise; its
    failures are isolated by the store and never reach the container.
    Numbers that the component compares (page positions, the child count)
    are integers, as the native component declares them. *)

From Stdlib Require Import ZArith QArith.
From stdpp Require Import base decidable option list.

Open Scope Z_scope.

(** ** Data model *)

(** Opaque identities: the mounted native view, a store subscriber, a
    child element and a location in the store heap. *)
Definition Handle := nat.
Definition Listener := nat.
Definition ReactNode := nat.
Definition StoreRef := nat.

(** A user-supplied callback: which function it is, and whether a call to
    it throws instead of returning. *)
Record Callback := { callback_id : nat; throws : bool }.

Definition returning (n : nat) : Callback :=
  {| callback_id := n; throws := false |}.
Definition throwing (n : nat) : Callback :=
  {| callback_id := n; throws := true |}.

(** String-literal unions of [PagerViewNativeComponent] and of
    [react-native], as enumerations. *)
Inductive PageScrollState := idle | dragging | settling.
Inductive LayoutDirection := ltr | rtl | locale.
Inductive KeyboardDismissMode := none | on_drag.
Inductive PlatformOS := ios | android | macos | windows | web.

#[global] Instance PageScrollState_eq_dec : EqDecision PageScrollState.
Proof. solve_decision. Defined.
#[global] Instance LayoutDirection_eq_dec : EqDecision LayoutDirection.
Proof. solve_decision. Defined.
#[global] Instance KeyboardDismissMode_eq_dec : EqDecision KeyboardDismissMode.
Proof. solve_decision. Defined.
#[global] Instance PlatformOS_eq_dec : EqDecision PlatformOS.
Proof. solve_decision. Defined.

(** [ReactNative.NativeSyntheticEvent<T>]: the handlers read [nativeEvent]
    only. *)
Record NativeSyntheticEvent (T : Type) := { nativeEvent : T }.
Arguments nativeEvent {T} _.
Arguments Build_NativeSyntheticEvent {T} _.

(** Event payloads.  The scroll payload is forwarded and never inspected;
    its fractional [offset] is carried as a rational. *)
Record OnPageScrollEventData := { scroll_position : Z; offset : Q }.
Record OnPageScrollStateChangedEventData :=
  { pageScrollState : PageScrollState }.
Record OnPageSelectedEventData := { position : Z }.

(** The props the component reads.  Optional props are [option]s; the
    remaining props are passed through to the native view untouched. *)
Record PagerViewProps := {
  initialPage : option Z;
  layoutDirection : option LayoutDirection;
  keyboardDismissMode : option KeyboardDismissMode;
  onPageScroll : option Callback;
  onPageScrollStateChanged : option Callback;
  onPageSelected : option Callback;
  children : list ReactNode
}.

(** Modelled from the spec: the state held by the store of [usePager]
    (the module is imported by the component, its source is not part of
    [src/]).  Section 3 of the specification: the settled page index and
    the two navigability flags. *)
Record PageSyncState := {
  page : Z;
  hasNextPage : bool;
  hasPreviousPage : bool
}.

(** Modelled from the spec: [Partial<PageSyncState>], the argument of
    [setState]; an absent key leaves the field as it is. *)
Record PartialPageSyncState := {
  new_page : option Z;
  new_hasNextPage : option bool;
  new_hasPreviousPage : option bool
}.

(** Modelled from the spec: a [PagerStore] owns one [PageSyncState] and its
    subscribers in subscription order. *)
Record PagerStore := {
  state : PageSyncState;
  listeners : list Listener
}.

(** The component instance: the class fields of [PagerView]. *)
Record PagerView := {
  props : PagerViewProps;
  isScrolling : bool;
  pagerView : option Handle;
  store : option StoreRef
}.

(** Calls that leave the component, in the order they are made. *)
Inductive Effect :=
| UserOnPageScroll (f : Callback)
    (e : NativeSyntheticEvent OnPageScrollEventData)
| UserOnPageScrollStateChanged (f : Callback)
    (e : NativeSyntheticEvent OnPageScrollStateChangedEventData)
| UserOnPageSelected (f : Callback)
    (e : NativeSyntheticEvent OnPageSelectedEventData)
| KeyboardDismiss
| StoreCreated (r : StoreRef) (seed : Z)
| StoreSetState (r : StoreRef) (partial : PartialPageSyncState)
| ListenerNotified (l : Listener) (snapshot : PageSyncState)
| CommandSetPage (h : Handle) (selectedPage : Z)
| CommandSetPageWithoutAnimation (h : Handle) (selectedPage : Z)
| CommandSetScrollEnabledImperatively (h : Handle) (scrollEnabled : bool).

(** [Platform.OS] and [I18nManager.isRTL]. *)
Record Env := { Platform_OS : PlatformOS; I18nManager_isRTL : bool }.

Record World := {
  env : Env;
  heap : list PagerStore;
  log : list Effect
}.

Record Runtime := { this : PagerView; world : World }.

(** ** The state monad of method bodies *)

Definition M (A : Type) : Type := Runtime -> A * Runtime.

Definition ret {A} (a : A) : M A := fun rt => (a, rt).

Definition bind {A B} (m : M A) (k : A -> M B) : M B :=
  fun rt => let (a, rt') := m rt in k a rt'.

Notation "x <- m ;; k" := (bind m (fun x => k))
  (at level 100, m at next level, right associativity).
Notation "m ;; k" := (bind m (fun _ => k))
  (at level 100, right associativity).

Definition get_this : M PagerView := fun rt => (this rt, rt).
Definition get_world : M World := fun rt => (world rt, rt).
Definition put_this (c : PagerView) : M unit :=
  fun rt => (tt, {| this := c; world := world rt |}).
Definition put_world (w : World) : M unit :=
  fun rt => (tt, {| this := this rt; world := w |}).

(** Field updates. *)
Definition with_props (p : PagerViewProps) (c : PagerView) : PagerView :=
  {| props := p; isScrolling := isScrolling c;
     pagerView := pagerView c; store := store c |}.
Definition with_isScrolling (b : bool) (c : PagerView) : PagerView :=
  {| props := props c; isScrolling := b;
     pagerView := pagerView c; store := store c |}.
Definition with_pagerView (h : option Handle) (c : PagerView) : PagerView :=
  {| props := props c; isScrolling := isScrolling c;
     pagerView := h; store := store c |}.
Definition with_store (r : option StoreRef) (c : PagerView) : PagerView :=
  {| props := props c; isScrolling := isScrolling c;
     pagerView := pagerView c; store := r |}.
Definition with_heap (h : list PagerStore) (w : World) : World :=
  {| env := env w; heap := h; log := log w |}.
Definition with_log (l : list Effect) (w : World) : World :=
  {| env := env w; heap := heap w; log := l |}.

(** Record one call, or several in order, in the log. *)
Definition emit_all (es : list Effect) : M unit :=
  w <- get_world ;; put_world (with_log (log w ++ es) w).
Definition emit (e : Effect) : M unit := emit_all [e].

(** ** Method bodies that call into the application *)

(** How such a body ends: it returns a value, or an exception leaves it. *)
Inductive Completion (A : Type) := Returned (a : A) | Threw.
Arguments Returned {A} _.
Arguments Threw {A}.

Definition E (A : Type) : Type := M (Completion A).

Definition lift {A} (m : M A) : E A := a <- m ;; ret (Returned a).

(** Sequencing: what follows a statement that threw is skipped. *)
Definition bindE {A B} (m : E A) (k : A -> E B) : E B :=
  r <- m ;;
  match r with
  | Returned a => k a
  | Threw => ret Threw
  end.

Notation "x <-! m ;; k" := (bindE m (fun x => k))
  (at level 100, m at next level, right associativity).
Notation "m ;;! k" := (bindE m (fun _ => k))
  (at level 100, right associativity).

(** Calling a user callback: the call is made, then it returns or throws. *)
Definition invoke (f : Callback) (call : Callback -> Effect) : E unit :=
  emit (call f) ;; ret (if throws f then Threw else Returned tt).

(** ** The page-state store *)

(** Modelled from the spec: the initial state of a store seeded with
    [initialPage]: [hasPreviousPage = initialPage > 0] and [hasNextPage]
    optimistically true until the child count is known. *)
Definition initial_state (initialPage : Z) : PageSyncState :=
  {| page := initialPage;
     hasNextPage := true;
     hasPreviousPage := 0 <? initialPage |}.

(** Modelled from the spec: [createPagerStore(initialPage)] of [usePager]
    allocates a fresh store with no subscriber. *)
Definition createPagerStore (initialPage : Z) : M StoreRef :=
  w <- get_world ;;
  let r := length (heap w) in
  put_world (with_heap
    (heap w ++ [ {| state := initial_state initialPage; listeners := [] |} ])
    w) ;;
  emit (StoreCreated r initialPage) ;;
  ret r.

(** Modelled from the spec: merging a partial update into a snapshot. *)
Definition merge (partial : PartialPageSyncState) (s : PageSyncState)
  : PageSyncState :=
  {| page := default (page s) (new_page partial);
     hasNextPage := default (hasNextPage s) (new_hasNextPage partial);
     hasPreviousPage :=
       default (hasPreviousPage s) (new_hasPreviousPage partial) |}.

(** Modelled from the spec: [store.setState(partial)] merges the update
    into the current state and then notifies every subscriber, in
    subscription order, with the new snapshot. *)
Definition setState (r : StoreRef) (partial : PartialPageSyncState)
  : M unit :=
  w <- get_world ;;
  match heap w !! r with
  | Some s =>
      let s' := merge partial (state s) in
      put_world (with_heap
        (<[r := {| state := s'; listeners := listeners s |}]> (heap w)) w) ;;
      emit (StoreSetState r partial) ;;
      emit_all (map (fun l => ListenerNotified l s') (listeners s))
  | None => ret tt
  end.

(** Modelled from the spec: [store.getState()]. *)
Definition getState (r : StoreRef) : M (option PageSyncState) :=
  w <- get_world ;; ret (state <$> heap w !! r).

(** ** The component *)

(** [React.Children.count] of a list of page elements. *)
Definition React_Children_count (cs : list ReactNode) : Z :=
  Z.of_nat (length cs).

(** [new PagerView(props)]: field initialisers, then the constructor body
    [this.store = createPagerStore(props.initialPage ?? 0)]. *)
Definition constructor (p : PagerViewProps) (w : World) : Runtime :=
  let fresh := {| props := p; isScrolling := false;
                  pagerView := None; store := None |} in
  snd ((r <- createPagerStore (default 0 (initialPage p)) ;;
        c <- get_this ;;
        put_this (with_store (Some r) c))
       {| this := fresh; world := w |}).

Definition _onPageScroll (e : NativeSyntheticEvent OnPageScrollEventData)
  : E unit :=
  c <- get_this ;;
  match onPageScroll (props c) with
  | Some f => invoke f (fun f => UserOnPageScroll f e)
  | None => lift (ret tt)
  end ;;!
  w <- get_world ;;
  c <- get_this ;;
  if bool_decide (Platform_OS (env w) = android) then
    if bool_decide (keyboardDismissMode (props c) = Some on_drag) then
      lift (emit KeyboardDismiss)
    else lift (ret tt)
  else lift (ret tt).

Definition _onPageScrollStateChanged
  (e : NativeSyntheticEvent OnPageScrollStateChangedEventData) : E unit :=
  c <- get_this ;;
  match onPageScrollStateChanged (props c) with
  | Some f => invoke f (fun f => UserOnPageScrollStateChanged f e)
  | None => lift (ret tt)
  end ;;!
  c <- get_this ;;
  lift (put_this
          (with_isScrolling
             (bool_decide (pageScrollState (nativeEvent e) = dragging)) c)).

(** The object literal passed to [setState] by [_onPageSelected]. *)
Definition selection_update (p : Z) (childCount : Z)
  : PartialPageSyncState :=
  {| new_page := Some p;
     new_hasNextPage := Some (p <? childCount - 1);
     new_hasPreviousPage := Some (0 <? p) |}.

Definition _onPageSelected (e : NativeSyntheticEvent OnPageSelectedEventData)
  : E unit :=
  c <- get_this ;;
  match onPageSelected (props c) with
  | Some f => invoke f (fun f => UserOnPageSelected f e)
  | None => lift (ret tt)
  end ;;!
  c <- get_this ;;
  match store c with
  | Some r =>
      lift (setState r
              (selection_update (position (nativeEvent e))
                 (React_Children_count (children (props c)))))
  | None => lift (ret tt)
  end.

Definition setPage (selectedPage : Z) : M unit :=
  c <- get_this ;;
  match pagerView c with
  | Some h => emit (CommandSetPage h selectedPage)
  | None => ret tt
  end.

Definition setPageWithoutAnimation (selectedPage : Z) : M unit :=
  c <- get_this ;;
  match pagerView c with
  | Some h => emit (CommandSetPageWithoutAnimation h selectedPage)
  | None => ret tt
  end.

Definition setScrollEnabled (scrollEnabled : bool) : M unit :=
  c <- get_this ;;
  match pagerView c with
  | Some h => emit (CommandSetScrollEnabledImperatively h scrollEnabled)
  | None => ret tt
  end.

Definition _onMoveShouldSetResponderCapture : M bool :=
  c <- get_this ;; ret (isScrolling c).

(** The getter: an absent prop is falsy, every supplied direction is a
    non-empty string and so truthy. *)
Definition deducedLayoutDirection : M LayoutDirection :=
  c <- get_this ;;
  match layoutDirection (props c) with
  | None | Some locale =>
      w <- get_world ;;
      ret (if I18nManager_isRTL (env w) then rtl else ltr)
  | Some d => ret d
  end.

(** The ref callback of [render]: [this.pagerView = ref]. *)
Definition ref_callback (ref : option Handle) : M unit :=
  c <- get_this ;; put_this (with_pagerView ref c).

(** Modelled from the spec: [childrenWithOverriddenStyle] of [utils] (not
    part of [src/]) is a stateless transform that gives every child, one
    for one and in order, the style that makes it fill the pager. *)
Inductive NativeChild := Overridden (child : ReactNode).

Definition childrenWithOverriddenStyle (cs : list ReactNode)
  : list NativeChild :=
  map Overridden cs.

(** The value [render] gives to [PagerViewContext.Provider]. *)
Record PagerViewContextValue := {
  ctx_store : option StoreRef;
  ctx_setPage : Z -> M unit;
  ctx_setPageWithoutAnimation : Z -> M unit;
  ctx_setScrollEnabled : bool -> M unit
}.

(** The props [render] gives to the native view: [{...this.props}], of
    which the keys that follow the spread are overridden.  What survives of
    the spread are the props the container does not set itself. *)
Record NativeViewProps := {
  native_initialPage : option Z;
  native_keyboardDismissMode : option KeyboardDismissMode;
  native_ref : option Handle -> M unit;
  native_layoutDirection : LayoutDirection;
  native_onPageScroll :
    NativeSyntheticEvent OnPageScrollEventData -> E unit;
  native_onPageScrollStateChanged :
    NativeSyntheticEvent OnPageScrollStateChangedEventData -> E unit;
  native_onPageSelected :
    NativeSyntheticEvent OnPageSelectedEventData -> E unit;
  native_onMoveShouldSetResponderCapture : M bool;
  native_children : list NativeChild
}.

Definition render : M (PagerViewContextValue * NativeViewProps) :=
  c <- get_this ;;
  d <- deducedLayoutDirection ;;
  ret ({| ctx_store := store c;
          ctx_setPage := setPage;
          ctx_setPageWithoutAnimation := setPageWithoutAnimation;
          ctx_setScrollEnabled := setScrollEnabled |},
       {| native_initialPage := initialPage (props c);
          native_keyboardDismissMode := keyboardDismissMode (props c);
          native_ref := ref_callback;
          native_layoutDirection := d;
          native_onPageScroll := _onPageScroll;
          native_onPageScrollStateChanged := _onPageScrollStateChanged;
          native_onPageSelected := _onPageSelected;
          native_onMoveShouldSetResponderCapture :=
            _onMoveShouldSetResponderCapture;
          native_children :=
            childrenWithOverriddenStyle (children (props c)) |}).

(** ** The lifetime of a container *)

(** What can happen to a constructed container: a native event, an
    imperative command, a responder-capture query, the ref being attached
    or released, and a render with new props.  An exception that leaves a
    handler goes to the host; the container stays as the handler left
    it. *)
Inductive Action :=
| OnPageScroll (e : NativeSyntheticEvent OnPageScrollEventData)
| OnPageScrollStateChanged
    (e : NativeSyntheticEvent OnPageScrollStateChangedEventData)
| OnPageSelected (e : NativeSyntheticEvent OnPageSelectedEventData)
| SetPage (selectedPage : Z)
| SetPageWithoutAnimation (selectedPage : Z)
| SetScrollEnabled (scrollEnabled : bool)
| MoveShouldSetResponderCapture
| Ref (ref : option Handle)
| Render (p : PagerViewProps).

Definition perform (a : Action) : M unit :=
  match a with
  | OnPageScroll e => _onPageScroll e ;; ret tt
  | OnPageScrollStateChanged e => _onPageScrollStateChanged e ;; ret tt
  | OnPageSelected e => _onPageSelected e ;; ret tt
  | SetPage n => setPage n
  | SetPageWithoutAnimation n => setPageWithoutAnimation n
  | SetScrollEnabled b => setScrollEnabled b
  | MoveShouldSetResponderCapture =>
      _onMoveShouldSetResponderCapture ;; ret tt
  | Ref h => ref_callback h
  | Render p =>
      c <- get_this ;; put_this (with_props p c) ;; render ;; ret tt
  end.

Fixpoint run (acts : list Action) (rt : Runtime) : Runtime :=
  match acts with
  | [] => rt
  | a :: rest => run rest (snd (perform a rt))
  end.

(** The scroll state carried by the last [OnPageScrollStateChanged] of a
    sequence of actions, if there is one. *)
Fixpoint last_scroll_state (acts : list Action) (acc : option PageScrollState)
  : option PageScrollState :=
  match acts with
  | [] => acc
  | OnPageScrollStateChanged e :: rest =>
      last_scroll_state rest (Some (pageScrollState (nativeEvent e)))
  | _ :: rest => last_scroll_state rest acc
  end.

(** Actions that are one of the two scroll event kinds. *)
Definition is_scroll_event (a : Action) : bool :=
  match a with
  | OnPageScroll _ | OnPageScrollStateChanged _ => true
  | _ => false
  end.

(** The number of stores created, and of store updates, in a log. *)
Definition is_created (e : Effect) : bool :=
  match e with StoreCreated _ _ => true | _ => false end.
Definition is_setState (e : Effect) : bool :=
  match e with StoreSetState _ _ => true | _ => false end.
Definition count_effects (f : Effect -> bool) (l : list Effect) : nat :=
  length (List.filter f l).

(** Whether the call to an optional user callback throws. *)
Definition callback_throws (cb : option Callback) : bool :=
  match cb with
  | Some f => throws f
  | None => false
  end.

(** Every user callback called during a sequence of actions, under the
    props then in force, returns normally. *)
Fixpoint callbacks_return (acts : list Action) (p : PagerViewProps) : bool :=
  match acts with
  | [] => true
  | OnPageScroll _ :: rest =>
      negb (callback_throws (onPageScroll p)) && callbacks_return rest p
  | OnPageScrollStateChanged _ :: rest =>
      negb (callback_throws (onPageScrollStateChanged p))
      && callbacks_return rest p
  | OnPageSelected _ :: rest =>
      negb (callback_throws (onPageSelected p)) && callbacks_return rest p
  | Render p' :: rest => callbacks_return rest p'
  | _ :: rest => callbacks_return rest p
  end.

(** The forwarding of an event to an optional user callback, as log
    entries: one call when the prop is supplied, none otherwise. *)
Definition forwarded (cb : option Callback) (call : Callback -> Effect)
  : list Effect :=
  match cb with
  | Some f => [call f]
  | None => []
  end.

(** The state written by a selection at position [p] among [n] children. *)
Definition selected_state (p n : Z) : PageSyncState :=
  {| page := p; hasNextPage := p <? n - 1; hasPreviousPage := 0 <? p |}.

(** Replacing the [onPageSelected] prop of a container. *)
Definition with_onPageSelected (cb : option Callback) (rt : Runtime)
  : Runtime :=
  let p := props (this rt) in
  {| this := with_props
       {| initialPage := initialPage p;
          layoutDirection := layoutDirection p;
          keyboardDismissMode := keyboardDismissMode p;
          onPageScroll := onPageScroll p;
          onPageScrollStateChanged := onPageScrollStateChanged p;
          onPageSelected := cb;
          children := children p |} (this rt);
     world := world rt |}.

(** Replacing the children of a container. *)
Definition with_children (cs : list ReactNode) (rt : Runtime) : Runtime :=
  let p := props (this rt) in
  {| this := with_props
       {| initialPage := initialPage p;
          layoutDirection := layoutDirection p;
          keyboardDismissMode := keyboardDismissMode p;
          onPageScroll := onPageScroll p;
          onPageScrollStateChanged := onPageScrollStateChanged p;
          onPageSelected := onPageSelected p;
          children := cs |} (this rt);
     world := world rt |}.

(** Replacing the store heap around a container. *)
Definition with_stores (h : list PagerStore) (rt : Runtime) : Runtime :=
  {| this := this rt; world := with_heap h (world rt) |}.

(** The two scroll event kinds, and their dispatch. *)
Inductive ScrollEvent :=
| Scrolled (e : NativeSyntheticEvent OnPageScrollEventData)
| ScrollStateChanged
    (e : NativeSyntheticEvent OnPageScrollStateChangedEventData).

Definition dispatch (ev : ScrollEvent) : Action :=
  match ev with
  | Scrolled e => OnPageScroll e
  | ScrollStateChanged e => OnPageScrollStateChanged e
  end.

(** The runtime after the calls [es] have been made and nothing else has
    changed. *)
Definition logged (es : list Effect) (rt : Runtime) : Runtime :=
  {| this := this rt; world := with_log (log (world rt) ++ es) (world rt) |}.

(** The keyboard side effect of a scroll event on platform [os] under the
    [keyboardDismissMode] prop [mode]. *)
Definition dismissal (os : PlatformOS) (mode : option KeyboardDismissMode)
  : list Effect :=
  if bool_decide (os = android /\ mode = Some on_drag)
  then [KeyboardDismiss] else [].

(** What every method leaves alone: the store reference of the container,
    the number of stores in the heap, the number of store creations in the
    log. *)
Definition same_store (rt after : Runtime) : Prop :=
  store (this after) = store (this rt)
  /\ length (heap (world after)) = length (heap (world rt))
  /\ count_effects is_created (log (world after))
     = count_effects is_created (log (world rt)).

(** ** Observations over a lifetime *)

(** The handle delivered by the last ref callback of a sequence of
    actions; [acc] is the handle held before the sequence. *)
Fixpoint last_ref (acts : list Action) (acc : option Handle)
  : option Handle :=
  match acts with
  | [] => acc
  | Ref h :: rest => last_ref rest h
  | _ :: rest => last_ref rest acc
  end.

Definition is_selection (a : Action) : bool :=
  match a with
  | OnPageSelected _ => true
  | _ => false
  end.

(** The page state a container should hold after a sequence of actions,
    followed on the side: a render replaces the props, a selection writes
    the state computed from its position and the children of the props
    then in force, every other action leaves both alone. *)
Fixpoint track (acts : list Action) (p : PagerViewProps) (s : PageSyncState)
  : PageSyncState :=
  match acts with
  | [] => s
  | OnPageSelected e :: rest =>
      track rest p
        (selected_state (position (nativeEvent e))
           (React_Children_count (children p)))
  | Render p' :: rest => track rest p' s
  | _ :: rest => track rest p s
  end.

(** The props in force after a sequence of actions. *)
Fixpoint last_props (acts : list Action) (p : PagerViewProps)
  : PagerViewProps :=
  match acts with
  | [] => p
  | Render p' :: rest => last_props rest p'
  | _ :: rest => last_props rest p
  end.

(** [hasPreviousPage] agrees with [page]. *)
Definition previous_consistent (s : PageSyncState) : Prop :=
  hasPreviousPage s = (0 <? page s).

(** The three kinds of native event and their handlers. *)
Inductive NativeEvent :=
| PageScroll (e : NativeSyntheticEvent OnPageScrollEventData)
| PageScrollStateChanged
    (e : NativeSyntheticEvent OnPageScrollStateChangedEventData)
| PageSelected (e : NativeSyntheticEvent OnPageSelectedEventData).

Definition deliver (ev : NativeEvent) : Action :=
  match ev with
  | PageScroll e => OnPageScroll e
  | PageScrollStateChanged e => OnPageScrollStateChanged e
  | PageSelected e => OnPageSelected e
  end.

(** The call an event makes to the application under props [p]. *)
Definition user_call (p : PagerViewProps) (ev : NativeEvent) : list Effect :=
  match ev with
  | PageScroll e =>
      forwarded (onPageScroll p) (fun f => UserOnPageScroll f e)
  | PageScrollStateChanged e =>
      forwarded (onPageScrollStateChanged p)
        (fun f => UserOnPageScrollStateChanged f e)
  | PageSelected e =>
      forwarded (onPageSelected p) (fun f => UserOnPageSelected f e)
  end.

Definition is_user_call (e : Effect) : bool :=
  match e with
  | UserOnPageScroll _ _ | UserOnPageScrollStateChanged _ _
  | UserOnPageSelected _ _ => true
  | _ => false
  end.

Definition is_dismiss (e : Effect) : bool :=
  match e with KeyboardDismiss => true | _ => false end.

Definition is_command (e : Effect) : bool :=
  match e with
  | CommandSetPage _ _ | CommandSetPageWithoutAnimation _ _
  | CommandSetScrollEnabledImperatively _ _ => true
  | _ => false
  end.

(** ** Sample data *)

Definition five_pages : list ReactNode := [1; 2; 3; 4; 5]%nat.

Definition sample_props : PagerViewProps :=
  {| initialPage := None;
     layoutDirection := None;
     keyboardDismissMode := Some on_drag;
     onPageScroll := Some (returning 21);
     onPageScrollStateChanged := Some (returning 22);
     onPageSelected := Some (returning 23);
     children := five_pages |}.

Definition sample_world : World :=
  {| env := {| Platform_OS := android; I18nManager_isRTL := false |};
     heap := [ {| state := initial_state 0; listeners := [31; 32]%nat |} ];
     log := [] |}.

Definition sample_runtime : Runtime :=
  {| this := {| props := sample_props; isScrolling := false;
                pagerView := None; store := Some 0%nat |};
     world := sample_world |}.

Definition selected (p : Z) : NativeSyntheticEvent OnPageSelectedEventData :=
  {| nativeEvent := {| position := p |} |}.

(** Props with nothing supplied but the children. *)
Definition bare_props (cs : list ReactNode) : PagerViewProps :=
  {| initialPage := None; layoutDirection := None;
     keyboardDismissMode := None; onPageScroll := None;
     onPageScrollStateChanged := None; onPageSelected := None;
     children := cs |}.

Definition quiet_actions : list Action :=
  [ Ref (Some 7%nat); SetPage 3; SetScrollEnabled false;
    Render (bare_props [1; 2]%nat) ].

Definition busy_actions : list Action :=
  [ OnPageSelected (selected 4); SetPage 2; OnPageSelected (selected 2);
    Render (bare_props [1; 2; 3]%nat) ].

Definition three_scrolls
  : list (NativeSyntheticEvent OnPageScrollEventData) :=
  [ {| nativeEvent := {| scroll_position := 0; offset := 0 |} |};
    {| nativeEvent := {| scroll_position := 0; offset := 0 |} |};
    {| nativeEvent := {| scroll_position := 1; offset := 0 |} |} ].

(** * Proofs *)

(** ** Unfolding method bodies *)

Ltac step_monad :=
  unfold invoke, lift, bindE, emit, emit_all, bind, ret, get_this, get_world,
    put_this, put_world;
  cbn [this world env heap log props isScrolling pagerView store
       with_log with_heap with_props with_isScrolling with_pagerView
       with_store fst snd].

Lemma snd_discard {A : Type} (m : M A) (rt : Runtime) :
  snd ((m ;; ret tt) rt) = snd (m rt).
Proof. unfold bind, ret. by destruct (m rt). Qed.

Lemma count_effects_app (f : Effect -> bool) (l1 l2 : list Effect) :
  count_effects f (l1 ++ l2) = (count_effects f l1 + count_effects f l2)%nat.
Proof. unfold count_effects. by rewrite List.filter_app, length_app. Qed.

Lemma count_setState_notifications (s : PageSyncState) (ls : list Listener) :
  count_effects is_setState (map (fun l => ListenerNotified l s) ls) = 0%nat.
Proof.
  unfold count_effects. induction ls as [|l ls IH]; [done|exact IH].
Qed.

Lemma count_setState_forwarded (cb : option Callback)
  (e : NativeSyntheticEvent OnPageSelectedEventData) :
  count_effects is_setState (forwarded cb (fun f => UserOnPageSelected f e))
  = 0%nat.
Proof. by destruct cb. Qed.

Lemma merge_selection (p n : Z) (s : PageSyncState) :
  merge (selection_update p n) s = selected_state p n.
Proof. reflexivity. Qed.

Lemma logged_nil (rt : Runtime) : logged [] rt = rt.
Proof.
  destruct rt as [c [ev h l]]. unfold logged, with_log. cbn.
  by rewrite app_nil_r.
Qed.

(** The handler of [onPageSelected] on a container whose store is live and
    whose callback, if any, returns: the complete resulting runtime. *)
Lemma _onPageSelected_run (rt : Runtime)
  (e : NativeSyntheticEvent OnPageSelectedEventData)
  (r : StoreRef) (s : PagerStore) :
  store (this rt) = Some r ->
  heap (world rt) !! r = Some s ->
  callback_throws (onPageSelected (props (this rt))) = false ->
  let p := position (nativeEvent e) in
  let n := React_Children_count (children (props (this rt))) in
  _onPageSelected e rt =
  (Returned tt,
   {| this := this rt;
      world :=
        {| env := env (world rt);
           heap := <[r := {| state := selected_state p n;
                             listeners := listeners s |}]>
                     (heap (world rt));
           log := log (world rt)
             ++ forwarded (onPageSelected (props (this rt)))
                  (fun f => UserOnPageSelected f e)
             ++ [StoreSetState r (selection_update p n)]
             ++ map (fun l => ListenerNotified l (selected_state p n))
                  (listeners s) |} |}).
Proof.
  intros Hr Hs Hcb p n. destruct rt as [c w]. cbn [this world] in *.
  unfold _onPageSelected. step_monad.
  destruct (onPageSelected (props c)) as [f|]; cbn [callback_throws] in Hcb;
    step_monad; rewrite ?Hcb; step_monad;
    rewrite Hr; unfold setState; step_monad; rewrite Hs; step_monad;
    cbn [forwarded state]; rewrite merge_selection;
    rewrite <- ?app_assoc, ?app_nil_r; reflexivity.
Qed.

(** The same handler when the callback throws: the call is made and the
    exception leaves the handler. *)
Lemma _onPageSelected_thrown (rt : Runtime)
  (e : NativeSyntheticEvent OnPageSelectedEventData) :
  callback_throws (onPageSelected (props (this rt))) = true ->
  _onPageSelected e rt =
  (Threw, logged (forwarded (onPageSelected (props (this rt)))
                    (fun f => UserOnPageSelected f e)) rt).
Proof.
  intros Hcb. unfold _onPageSelected. step_monad.
  destruct (onPageSelected (props (this rt))) as [f|];
    cbn [callback_throws] in Hcb; [|discriminate].
  step_monad. by rewrite Hcb.
Qed.

(** C1. For an [onPageSelected] event at position [p] on a container with
    [n] children whose store is live, the handler first forwards the very
    event to the user's [onPageSelected] callback when there is one, then
    (the callback having returned) makes exactly one [setState] call,
    after which the store holds [page = p], [hasNextPage = (p < n - 1)],
    [hasPreviousPage = (p > 0)]; the subscribers are then notified of that
    snapshot. *)
Theorem onPageSelected_forwards_then_updates (rt : Runtime)
  (e : NativeSyntheticEvent OnPageSelectedEventData)
  (r : StoreRef) (s : PagerStore) :
  store (this rt) = Some r ->
  heap (world rt) !! r = Some s ->
  callback_throws (onPageSelected (props (this rt))) = false ->
  let p := position (nativeEvent e) in
  let n := React_Children_count (children (props (this rt))) in
  let after := snd (_onPageSelected e rt) in
  log (world after) =
    log (world rt)
    ++ forwarded (onPageSelected (props (this rt)))
         (fun f => UserOnPageSelected f e)
    ++ [StoreSetState r (selection_update p n)]
    ++ map (fun l => ListenerNotified l (selected_state p n)) (listeners s)
  /\ count_effects is_setState (log (world after))
     = S (count_effects is_setState (log (world rt)))
  /\ fst (getState r after) =
     Some {| page := p; hasNextPage := p <? n - 1;
             hasPreviousPage := 0 <? p |}
  /\ heap (world after) =
     <[r := {| state := selected_state p n; listeners := listeners s |}]>
       (heap (world rt))
  /\ this after = this rt.
Proof.
  intros Hr Hs Hcb p n after. subst after.
  rewrite (_onPageSelected_run rt e r s Hr Hs Hcb).
  cbn [snd world log heap this].
  fold p. fold n. split; [reflexivity|]. split.
  - rewrite !count_effects_app, count_setState_forwarded,
      count_setState_notifications.
    change (count_effects is_setState [StoreSetState r (selection_update p n)])
      with 1%nat.
    lia.
  - split; [|split; reflexivity].
    unfold getState. step_monad.
    rewrite list_lookup_insert_eq; [reflexivity|].
    by apply lookup_lt_Some with s.
Qed.

(** The event of the specification's example: position 2 among 5 children
    yields [{page: 2, hasNextPage: true, hasPreviousPage: true}]. *)
Lemma onPageSelected_forwards_then_updates_witness :
  let after := snd (_onPageSelected (selected 2) sample_runtime) in
  store (this sample_runtime) = Some 0%nat
  /\ React_Children_count (children (props (this sample_runtime))) = 5
  /\ log (world after) =
    [ UserOnPageSelected (returning 23) (selected 2);
      StoreSetState 0%nat
        {| new_page := Some 2; new_hasNextPage := Some true;
           new_hasPreviousPage := Some true |};
      ListenerNotified 31%nat
        {| page := 2; hasNextPage := true; hasPreviousPage := true |};
      ListenerNotified 32%nat
        {| page := 2; hasNextPage := true; hasPreviousPage := true |} ]
  /\ fst (getState 0%nat after) =
     Some {| page := 2; hasNextPage := true; hasPreviousPage := true |}.
Proof.
  pose proof (onPageSelected_forwards_then_updates sample_runtime
                (selected 2) 0%nat
                {| state := initial_state 0; listeners := [31; 32]%nat |}
                eq_refl eq_refl eq_refl) as H.
  cbv zeta in H. destruct H as (Hlog & _ & Hstate & _).
  split; [reflexivity|]. split; [reflexivity|].
  split; [exact Hlog | exact Hstate].
Defined.

(** C8, as the code has it.  Omitting the [onPageSelected] prop never
    suppresses the store update, and a callback that returns makes no
    difference to it: in both cases the handler makes its one [setState]
    call and the store ends in the same state.  The update follows the
    forwarding in sequence, so a callback that throws leaves the handler
    before the update: no [setState] call is made and the store is as it
    was. *)
Theorem onPageSelected_update_when_callback_returns (rt : Runtime)
  (e : NativeSyntheticEvent OnPageSelectedEventData)
  (r : StoreRef) (s : PagerStore) (cb : option Callback) :
  store (this rt) = Some r ->
  heap (world rt) !! r = Some s ->
  let p := position (nativeEvent e) in
  let n := React_Children_count (children (props (this rt))) in
  let after := snd (_onPageSelected e (with_onPageSelected cb rt)) in
  let omitted := snd (_onPageSelected e (with_onPageSelected None rt)) in
  heap (world omitted) =
    <[r := {| state := selected_state p n; listeners := listeners s |}]>
      (heap (world rt))
  /\ count_effects is_setState (log (world omitted))
     = S (count_effects is_setState (log (world rt)))
  /\ (callback_throws cb = false ->
      heap (world after) = heap (world omitted)
      /\ count_effects is_setState (log (world after))
         = S (count_effects is_setState (log (world rt))))
  /\ (callback_throws cb = true ->
      fst (_onPageSelected e (with_onPageSelected cb rt)) = Threw
      /\ heap (world after) = heap (world rt)
      /\ count_effects is_setState (log (world after))
         = count_effects is_setState (log (world rt))).
Proof.
  intros Hr Hs p n after omitted. subst after omitted.
  assert (Hcount : forall cb' : option Callback,
    count_effects is_setState
      (log (world rt)
       ++ forwarded cb' (fun f => UserOnPageSelected f e)
       ++ [StoreSetState r (selection_update p n)]
       ++ map (fun l => ListenerNotified l (selected_state p n))
            (listeners s))
    = S (count_effects is_setState (log (world rt)))).
  { intros cb'. rewrite !count_effects_app, count_setState_forwarded,
      count_setState_notifications.
    change (count_effects is_setState [StoreSetState r (selection_update p n)])
      with 1%nat.
    lia. }
  rewrite (_onPageSelected_run (with_onPageSelected None rt) e r s Hr Hs
             eq_refl).
  cbn [snd world log heap this with_onPageSelected props with_props
       children onPageSelected].
  fold p. fold n. split; [reflexivity|]. split; [apply Hcount|]. split.
  - intros Hcb.
    rewrite (_onPageSelected_run (with_onPageSelected cb rt) e r s Hr Hs Hcb).
    cbn [snd world log heap this with_onPageSelected props with_props
         children onPageSelected].
    fold p. fold n. split; [reflexivity|apply Hcount].
  - intros Hcb.
    rewrite (_onPageSelected_thrown (with_onPageSelected cb rt) e Hcb).
    cbn [fst snd logged world log heap this with_log with_onPageSelected
         props with_props onPageSelected].
    split; [reflexivity|]. split; [reflexivity|].
    rewrite count_effects_app, count_setState_forwarded. lia.
Qed.

(** With the callback omitted, and with one that returns, selecting page 4
    of 5 updates the store. *)
Lemma onPageSelected_update_when_callback_returns_witness :
  store (this sample_runtime) = Some 0%nat
  /\ fst (getState 0%nat
       (snd (_onPageSelected (selected 4)
               (with_onPageSelected None sample_runtime))))
     = Some {| page := 4; hasNextPage := false; hasPreviousPage := true |}
  /\ heap (world (snd (_onPageSelected (selected 4)
                         (with_onPageSelected (Some (returning 9))
                            sample_runtime))))
     = heap (world (snd (_onPageSelected (selected 4)
                           (with_onPageSelected None sample_runtime)))).
Proof.
  pose proof (onPageSelected_update_when_callback_returns sample_runtime
                (selected 4) 0%nat
                {| state := initial_state 0; listeners := [31; 32]%nat |}
                (Some (returning 9)) eq_refl eq_refl) as H.
  cbv zeta in H. destruct H as (Hheap & _ & Hret & _).
  split; [reflexivity|]. split.
  - unfold getState. step_monad. rewrite Hheap. reflexivity.
  - exact (proj1 (Hret eq_refl)).
Defined.

(** C8 as it was stated does not hold: with a callback that throws, the
    event is forwarded and the store update is not applied, whereas with
    the callback omitted it is. *)
Lemma onPageSelected_throwing_callback_skips_update :
  let rt := with_onPageSelected (Some (throwing 23)) sample_runtime in
  let bare := with_onPageSelected None sample_runtime in
  store (this rt) = Some 0%nat
  /\ fst (getState 0%nat rt) = Some (initial_state 0)
  /\ _onPageSelected (selected 2) rt =
     (Threw, logged [UserOnPageSelected (throwing 23) (selected 2)] rt)
  /\ count_effects is_setState
       (log (world (snd (_onPageSelected (selected 2) rt)))) = 0%nat
  /\ fst (getState 0%nat (snd (_onPageSelected (selected 2) rt)))
     = Some (initial_state 0)
  /\ fst (getState 0%nat (snd (_onPageSelected (selected 2) bare)))
     = Some {| page := 2; hasNextPage := true; hasPreviousPage := true |}.
Proof. cbv zeta. repeat split. Qed.

(** ** The scroll handlers *)

Lemma _onPageScroll_run (rt : Runtime)
  (e : NativeSyntheticEvent OnPageScrollEventData) :
  _onPageScroll e rt =
  let user := forwarded (onPageScroll (props (this rt)))
                (fun f => UserOnPageScroll f e) in
  if callback_throws (onPageScroll (props (this rt)))
  then (Threw, logged user rt)
  else (Returned tt,
        logged (user ++ dismissal (Platform_OS (env (world rt)))
                          (keyboardDismissMode (props (this rt)))) rt).
Proof.
  destruct rt as [c [ev h l]]. unfold _onPageScroll, logged, dismissal.
  step_monad.
  destruct (onPageScroll (props c)) as [f|]; cbn [callback_throws forwarded];
    step_monad; [destruct (throws f); step_monad; [reflexivity|]|];
    repeat case_bool_decide; step_monad;
    rewrite <- ?app_assoc, ?app_nil_r; try reflexivity; exfalso; tauto.
Qed.

Lemma _onPageScroll_snd (rt : Runtime)
  (e : NativeSyntheticEvent OnPageScrollEventData) :
  snd (_onPageScroll e rt) =
  logged (forwarded (onPageScroll (props (this rt)))
            (fun f => UserOnPageScroll f e)
          ++ if callback_throws (onPageScroll (props (this rt))) then []
             else dismissal (Platform_OS (env (world rt)))
                    (keyboardDismissMode (props (this rt)))) rt.
Proof.
  rewrite _onPageScroll_run. cbv zeta.
  destruct (callback_throws (onPageScroll (props (this rt))));
    cbn [snd]; by rewrite ?app_nil_r.
Qed.

Lemma _onPageScrollStateChanged_run (rt : Runtime)
  (e : NativeSyntheticEvent OnPageScrollStateChangedEventData) :
  _onPageScrollStateChanged e rt =
  let user := forwarded (onPageScrollStateChanged (props (this rt)))
                (fun f => UserOnPageScrollStateChanged f e) in
  if callback_throws (onPageScrollStateChanged (props (this rt)))
  then (Threw, logged user rt)
  else (Returned tt,
        {| this := with_isScrolling
                     (bool_decide
                        (pageScrollState (nativeEvent e) = dragging))
                     (this rt);
           world := with_log (log (world rt) ++ user) (world rt) |}).
Proof.
  destruct rt as [c [ev h l]]. unfold _onPageScrollStateChanged, logged.
  step_monad.
  destruct (onPageScrollStateChanged (props c)) as [f|];
    cbn [callback_throws forwarded]; step_monad;
    [destruct (throws f); step_monad|]; rewrite ?app_nil_r; reflexivity.
Qed.

Lemma _onPageScrollStateChanged_snd (rt : Runtime)
  (e : NativeSyntheticEvent OnPageScrollStateChangedEventData) :
  snd (_onPageScrollStateChanged e rt) =
  {| this :=
       if callback_throws (onPageScrollStateChanged (props (this rt)))
       then this rt
       else with_isScrolling
              (bool_decide (pageScrollState (nativeEvent e) = dragging))
              (this rt);
     world := with_log
                (log (world rt)
                 ++ forwarded (onPageScrollStateChanged (props (this rt)))
                      (fun f => UserOnPageScrollStateChanged f e))
                (world rt) |}.
Proof.
  rewrite _onPageScrollStateChanged_run. cbv zeta.
  by destruct (callback_throws (onPageScrollStateChanged (props (this rt)))).
Qed.

Lemma perform_scroll_event (ev : ScrollEvent) (rt : Runtime) :
  let after := snd (perform (dispatch ev) rt) in
  heap (world after) = heap (world rt)
  /\ store (this after) = store (this rt).
Proof.
  destruct ev as [e|e]; cbn [dispatch perform]; rewrite snd_discard.
  - rewrite _onPageScroll_snd. split; reflexivity.
  - rewrite _onPageScrollStateChanged_snd. cbn [this world store heap].
    by destruct (callback_throws _).
Qed.

(** C2. Dispatching an [onPageScroll] or an [onPageScrollStateChanged]
    event, or any sequence made of these two kinds only, leaves the store
    heap (every page, [hasNextPage], [hasPreviousPage] and subscriber list)
    and the container's store reference as they were, and makes no
    [setState] call. *)
Theorem scroll_events_leave_store (rt : Runtime) :
  (forall e, let after := snd (_onPageScroll e rt) in
     heap (world after) = heap (world rt)
     /\ store (this after) = store (this rt)
     /\ count_effects is_setState (log (world after))
        = count_effects is_setState (log (world rt)))
  /\ (forall e, let after := snd (_onPageScrollStateChanged e rt) in
     heap (world after) = heap (world rt)
     /\ store (this after) = store (this rt)
     /\ count_effects is_setState (log (world after))
        = count_effects is_setState (log (world rt)))
  /\ (forall evs : list ScrollEvent,
     let after := run (map dispatch evs) rt in
     heap (world after) = heap (world rt)
     /\ store (this after) = store (this rt)).
Proof.
  split; [|split].
  - intros e after. subst after. rewrite _onPageScroll_snd.
    cbn [snd logged world this heap with_log log]. repeat split.
    rewrite !count_effects_app. unfold dismissal.
    destruct (onPageScroll (props (this rt))) as [f|];
      cbn [callback_throws]; [destruct (throws f)|];
      try case_bool_decide; cbn; lia.
  - intros e after. subst after. rewrite _onPageScrollStateChanged_snd.
    cbn [snd world this heap with_log log].
    split; [reflexivity|]. split; [by destruct (callback_throws _)|].
    rewrite count_effects_app.
    destruct (onPageScrollStateChanged (props (this rt))); cbn; lia.
  - intros evs. revert rt. induction evs as [|ev evs IH]; intros rt.
    + split; reflexivity.
    + cbn [map run]. cbv zeta in IH.
      destruct (IH (snd (perform (dispatch ev) rt))) as [Hh Hst].
      destruct (perform_scroll_event ev rt) as [Hh' Hst'].
      cbv zeta. rewrite Hh, Hst. split; assumption.
Qed.

(** C10. [_onPageScroll] first forwards the event to the user's
    [onPageScroll] callback when there is one, and after that (the callback
    having returned) dismisses the keyboard exactly when the platform is
    Android and [keyboardDismissMode] is ['on-drag']; in every other case
    the forwarding is its only effect.  Nothing but the log changes.  A
    callback that throws leaves the handler right after the call. *)
Theorem onPageScroll_dismisses_keyboard (rt : Runtime)
  (e : NativeSyntheticEvent OnPageScrollEventData) :
  let os := Platform_OS (env (world rt)) in
  let mode := keyboardDismissMode (props (this rt)) in
  let user := forwarded (onPageScroll (props (this rt)))
                (fun f => UserOnPageScroll f e) in
  (callback_throws (onPageScroll (props (this rt))) = false ->
   _onPageScroll e rt = (Returned tt, logged (user ++ dismissal os mode) rt))
  /\ (dismissal os mode = [KeyboardDismiss]
      <-> os = android /\ mode = Some on_drag)
  /\ (dismissal os mode = [] <-> ~ (os = android /\ mode = Some on_drag))
  /\ (callback_throws (onPageScroll (props (this rt))) = true ->
      _onPageScroll e rt = (Threw, logged user rt)).
Proof.
  intros os mode user.
  split; [intros Hcb; by rewrite _onPageScroll_run, Hcb|].
  split; [|split].
  - unfold dismissal. case_bool_decide; split; intros; try done.
  - unfold dismissal. case_bool_decide; split; intros; try done.
  - intros Hcb. by rewrite _onPageScroll_run, Hcb.
Qed.

(** A scroll event on Android under ['on-drag'], with a callback that
    returns. *)
Lemma onPageScroll_dismisses_keyboard_witness :
  let e := {| nativeEvent := {| scroll_position := 1; offset := 0 |} |} in
  _onPageScroll e sample_runtime =
  (Returned tt,
   logged [UserOnPageScroll (returning 21) e; KeyboardDismiss]
     sample_runtime).
Proof.
  cbv zeta.
  exact (proj1 (onPageScroll_dismisses_keyboard sample_runtime
                  {| nativeEvent := {| scroll_position := 1; offset := 0 |} |})
           eq_refl).
Defined.

(** ** The imperative commands *)

Lemma setPage_run (n : Z) (rt : Runtime) :
  setPage n rt =
  (tt, logged (match pagerView (this rt) with
               | Some h => [CommandSetPage h n]
               | None => []
               end) rt).
Proof.
  unfold setPage. step_monad.
  destruct (pagerView (this rt)); step_monad; [reflexivity|].
  by rewrite logged_nil.
Qed.

Lemma setPageWithoutAnimation_run (n : Z) (rt : Runtime) :
  setPageWithoutAnimation n rt =
  (tt, logged (match pagerView (this rt) with
               | Some h => [CommandSetPageWithoutAnimation h n]
               | None => []
               end) rt).
Proof.
  unfold setPageWithoutAnimation. step_monad.
  destruct (pagerView (this rt)); step_monad; [reflexivity|].
  by rewrite logged_nil.
Qed.

Lemma setScrollEnabled_run (b : bool) (rt : Runtime) :
  setScrollEnabled b rt =
  (tt, logged (match pagerView (this rt) with
               | Some h => [CommandSetScrollEnabledImperatively h b]
               | None => []
               end) rt).
Proof.
  unfold setScrollEnabled. step_monad.
  destruct (pagerView (this rt)); step_monad; [reflexivity|].
  by rewrite logged_nil.
Qed.

(** C3. Whatever the argument, each of [setPage],
    [setPageWithoutAnimation] and [setScrollEnabled] returns normally;
    while the native view handle is null it changes nothing at all (no
    command, no other effect), and with a handle [h] it issues exactly its
    own command on [h] with the argument it was given, and nothing else. *)
Theorem commands_guarded_by_handle (rt : Runtime) (n : Z) (b : bool) :
  match pagerView (this rt) with
  | None =>
      setPage n rt = (tt, rt)
      /\ setPageWithoutAnimation n rt = (tt, rt)
      /\ setScrollEnabled b rt = (tt, rt)
  | Some h =>
      setPage n rt = (tt, logged [CommandSetPage h n] rt)
      /\ setPageWithoutAnimation n rt =
         (tt, logged [CommandSetPageWithoutAnimation h n] rt)
      /\ setScrollEnabled b rt =
         (tt, logged [CommandSetScrollEnabledImperatively h b] rt)
  end.
Proof.
  rewrite setPage_run, setPageWithoutAnimation_run, setScrollEnabled_run.
  destruct (pagerView (this rt)); rewrite ?logged_nil; done.
Qed.

(** C4. With a native handle [h], [setPage] and [setPageWithoutAnimation]
    pass on to the native command exactly the index they receive, for
    every integer (negative or beyond the last child included) and
    whatever the children are: the index is neither clamped nor rejected
    nor compared with the child count. *)
Theorem setPage_forwards_index (rt : Runtime) (h : Handle) (n : Z)
  (cs : list ReactNode) :
  pagerView (this rt) = Some h ->
  setPage n (with_children cs rt) =
    (tt, logged [CommandSetPage h n] (with_children cs rt))
  /\ setPageWithoutAnimation n (with_children cs rt) =
    (tt, logged [CommandSetPageWithoutAnimation h n] (with_children cs rt)).
Proof.
  intros Hh. rewrite setPage_run, setPageWithoutAnimation_run.
  cbn [with_children this with_props pagerView]. rewrite Hh. done.
Qed.

(** An index below zero and an index past the last of five children. *)
Lemma setPage_forwards_index_witness :
  let mounted := snd (ref_callback (Some 7%nat) sample_runtime) in
  log (world (snd (setPage (-3) (with_children five_pages mounted))))
    = [CommandSetPage 7%nat (-3)]
  /\ log (world (snd (setPageWithoutAnimation 9
                        (with_children five_pages mounted))))
    = [CommandSetPageWithoutAnimation 7%nat 9].
Proof.
  pose proof (setPage_forwards_index
                (snd (ref_callback (Some 7%nat) sample_runtime))
                7%nat (-3) five_pages eq_refl) as [H1 _].
  pose proof (setPage_forwards_index
                (snd (ref_callback (Some 7%nat) sample_runtime))
                7%nat 9 five_pages eq_refl) as [_ H2].
  cbv zeta. rewrite H1, H2. split; reflexivity.
Defined.

(** ** Layout direction *)

(** C5. The layout direction handed to the native view by [render] is the
    one computed by [deducedLayoutDirection]: the [layoutDirection] prop
    itself when it is supplied and is not ['locale'], and otherwise ['rtl']
    when [I18nManager.isRTL] holds and ['ltr'] when it does not.  The
    getter changes nothing. *)
Theorem layoutDirection_deduced (rt : Runtime) :
  let prop := layoutDirection (props (this rt)) in
  let d := fst (deducedLayoutDirection rt) in
  native_layoutDirection (snd (fst (render rt))) = d
  /\ (forall x, prop = Some x -> x <> locale -> d = x)
  /\ (prop = None \/ prop = Some locale ->
      d = if I18nManager_isRTL (env (world rt)) then rtl else ltr)
  /\ snd (deducedLayoutDirection rt) = rt.
Proof.
  intros prop d. subst prop d. unfold render, deducedLayoutDirection.
  step_monad.
  destruct (layoutDirection (props (this rt))) as [[]|]; step_monad;
    repeat split; try reflexivity; try congruence;
    try (intros [?|?]; congruence).
Qed.

(** ** The dragging flag *)

(** C6. [_onPageScrollStateChanged] forwards the very event to the user's
    callback when there is one and then (the callback having returned)
    sets the dragging flag, which ends up true exactly when the event's
    [pageScrollState] is ['dragging']; the store heap is untouched.  The
    responder-capture predicate returns the current flag, changes nothing,
    and returns the same answer whatever the stores hold.  A callback that
    throws leaves the flag as it was. *)
Theorem scroll_state_drives_dragging_flag (rt : Runtime)
  (e : NativeSyntheticEvent OnPageScrollStateChangedEventData) :
  let after := snd (_onPageScrollStateChanged e rt) in
  log (world after) =
    log (world rt)
    ++ forwarded (onPageScrollStateChanged (props (this rt)))
         (fun f => UserOnPageScrollStateChanged f e)
  /\ (callback_throws (onPageScrollStateChanged (props (this rt))) = false ->
      (isScrolling (this after) = true
       <-> pageScrollState (nativeEvent e) = dragging))
  /\ heap (world after) = heap (world rt)
  /\ _onMoveShouldSetResponderCapture rt = (isScrolling (this rt), rt)
  /\ _onMoveShouldSetResponderCapture after = (isScrolling (this after), after)
  /\ (forall stores,
        fst (_onMoveShouldSetResponderCapture (with_stores stores rt))
        = fst (_onMoveShouldSetResponderCapture rt))
  /\ (callback_throws (onPageScrollStateChanged (props (this rt))) = true ->
      isScrolling (this after) = isScrolling (this rt)).
Proof.
  intros after. subst after. rewrite _onPageScrollStateChanged_snd.
  cbn [snd world this log heap with_log].
  split; [reflexivity|]. split; [|repeat split].
  - intros ->. cbn [isScrolling with_isScrolling].
    split; intros H; [by apply bool_decide_eq_true in H|
                      by apply bool_decide_eq_true].
  - by intros ->.
Qed.

(** A drag begins on the sample container, whose callback returns. *)
Lemma scroll_state_drives_dragging_flag_witness :
  let drag := {| nativeEvent := {| pageScrollState := dragging |} |} in
  let after := snd (_onPageScrollStateChanged drag sample_runtime) in
  isScrolling (this sample_runtime) = false
  /\ isScrolling (this after) = true
  /\ log (world after) = [UserOnPageScrollStateChanged (returning 22) drag].
Proof.
  pose proof (scroll_state_drives_dragging_flag sample_runtime
                {| nativeEvent := {| pageScrollState := dragging |} |}) as H.
  cbv zeta in H. destruct H as (Hlog & Hflag & _).
  cbv zeta. split; [reflexivity|]. split; [|exact Hlog].
  by apply (Hflag eq_refl).
Defined.

(** ** Frame properties of every action *)

Lemma setState_run (r : StoreRef) (partial : PartialPageSyncState)
  (rt : Runtime) :
  setState r partial rt =
  (tt, match heap (world rt) !! r with
       | Some s =>
           {| this := this rt;
              world :=
                {| env := env (world rt);
                   heap := <[r := {| state := merge partial (state s);
                                     listeners := listeners s |}]>
                             (heap (world rt));
                   log := log (world rt)
                     ++ [StoreSetState r partial]
                     ++ map (fun l =>
                               ListenerNotified l (merge partial (state s)))
                          (listeners s) |} |}
       | None => rt
       end).
Proof.
  unfold setState. step_monad.
  destruct (heap (world rt) !! r) as [s|]; step_monad; [|reflexivity].
  by rewrite <- app_assoc.
Qed.

Lemma count_created_notifications (s : PageSyncState) (ls : list Listener) :
  count_effects is_created (map (fun l => ListenerNotified l s) ls) = 0%nat.
Proof.
  unfold count_effects. induction ls as [|l ls IH]; [done|exact IH].
Qed.

Lemma same_store_refl (rt : Runtime) : same_store rt rt.
Proof. by repeat split. Qed.

Lemma same_store_trans (a b c : Runtime) :
  same_store a b -> same_store b c -> same_store a c.
Proof.
  unfold same_store. intros (H1 & H2 & H3) (H4 & H5 & H6).
  repeat split; congruence.
Qed.

Lemma same_store_logged (es : list Effect) (rt : Runtime) :
  count_effects is_created es = 0%nat -> same_store rt (logged es rt).
Proof.
  intros H. unfold same_store, logged.
  cbn [this world heap log with_log store]. repeat split.
  rewrite count_effects_app, H. lia.
Qed.

Lemma same_store_setState (r : StoreRef) (partial : PartialPageSyncState)
  (rt : Runtime) :
  same_store rt (snd (setState r partial rt)).
Proof.
  rewrite setState_run. cbn [snd].
  destruct (heap (world rt) !! r) as [s|]; [|apply same_store_refl].
  unfold same_store. cbn [this world heap log]. repeat split.
  - by rewrite length_insert.
  - rewrite !count_effects_app, count_created_notifications. cbn. lia.
Qed.

Lemma render_run (rt : Runtime) : snd (render rt) = rt.
Proof.
  unfold render, deducedLayoutDirection. step_monad.
  by destruct (layoutDirection (props (this rt))) as [[]|].
Qed.

Lemma perform_Render (p : PagerViewProps) (rt : Runtime) :
  snd (perform (Render p) rt)
  = {| this := with_props p (this rt); world := world rt |}.
Proof.
  cbn [perform]. unfold render, deducedLayoutDirection. step_monad.
  by destruct (layoutDirection p) as [[]|].
Qed.

(** The runtime after [_onPageSelected], whatever the callback does and
    whether or not the store is live. *)
Lemma _onPageSelected_general
  (e : NativeSyntheticEvent OnPageSelectedEventData) (rt : Runtime) :
  snd (_onPageSelected e rt) =
  let rt1 := logged (forwarded (onPageSelected (props (this rt)))
                       (fun f => UserOnPageSelected f e)) rt in
  if callback_throws (onPageSelected (props (this rt))) then rt1
  else match store (this rt) with
       | Some r =>
           snd (setState r
                  (selection_update (position (nativeEvent e))
                     (React_Children_count (children (props (this rt)))))
                  rt1)
       | None => rt1
       end.
Proof.
  unfold _onPageSelected. step_monad.
  destruct (onPageSelected (props (this rt))) as [f|];
    cbn [forwarded callback_throws]; step_monad; rewrite ?logged_nil.
  - destruct (throws f); step_monad; [reflexivity|].
    destruct (store (this rt)); step_monad; [|reflexivity].
    unfold logged. by destruct (setState _ _ _).
  - destruct (store (this rt)); step_monad; [|by destruct rt].
    destruct rt as [c w]. cbn [this world]. by destruct (setState _ _ _).
Qed.

Lemma _onPageSelected_this (e : NativeSyntheticEvent OnPageSelectedEventData)
  (rt : Runtime) :
  this (snd (_onPageSelected e rt)) = this rt.
Proof.
  rewrite _onPageSelected_general. cbv zeta.
  destruct (callback_throws _); [reflexivity|].
  destruct (store (this rt)) as [r|]; [|reflexivity].
  rewrite setState_run. cbn [snd logged this world heap with_log].
  by destruct (heap (world rt) !! r).
Qed.

Lemma same_store__onPageSelected
  (e : NativeSyntheticEvent OnPageSelectedEventData) (rt : Runtime) :
  same_store rt (snd (_onPageSelected e rt)).
Proof.
  rewrite _onPageSelected_general. cbv zeta.
  assert (H1 : same_store rt
                 (logged (forwarded (onPageSelected (props (this rt)))
                            (fun f => UserOnPageSelected f e)) rt)).
  { apply same_store_logged. by destruct (onPageSelected (props (this rt))). }
  destruct (callback_throws _); [exact H1|].
  destruct (store (this rt)) as [r|]; [|exact H1].
  eapply same_store_trans; [exact H1|apply same_store_setState].
Qed.

Lemma perform_same_store (a : Action) (rt : Runtime) :
  same_store rt (snd (perform a rt)).
Proof.
  destruct a; [cbn [perform]; rewrite ?snd_discard..|rewrite perform_Render].
  - rewrite _onPageScroll_snd. apply same_store_logged.
    rewrite count_effects_app. unfold dismissal.
    destruct (onPageScroll (props (this rt))), (callback_throws _);
      try case_bool_decide; done.
  - rewrite _onPageScrollStateChanged_snd. unfold same_store.
    cbn [snd this world heap log with_log].
    split; [by destruct (callback_throws _)|]. split; [reflexivity|].
    rewrite count_effects_app.
    destruct (onPageScrollStateChanged (props (this rt))); cbn; lia.
  - apply same_store__onPageSelected.
  - rewrite setPage_run. apply same_store_logged.
    by destruct (pagerView (this rt)).
  - rewrite setPageWithoutAnimation_run. apply same_store_logged.
    by destruct (pagerView (this rt)).
  - rewrite setScrollEnabled_run. apply same_store_logged.
    by destruct (pagerView (this rt)).
  - destruct rt as [c w]. apply same_store_refl.
  - by repeat split.
  - by repeat split.
Qed.

Lemma run_same_store (acts : list Action) (rt : Runtime) :
  same_store rt (run acts rt).
Proof.
  revert rt. induction acts as [|a acts IH]; intros rt.
  - apply same_store_refl.
  - cbn [run]. eapply same_store_trans; [apply perform_same_store|apply IH].
Qed.

Lemma perform_props (a : Action) (rt : Runtime) :
  props (this (snd (perform a rt))) = last_props [a] (props (this rt)).
Proof.
  destruct a;
    [cbn [perform last_props]; rewrite ?snd_discard..|rewrite perform_Render].
  - by rewrite _onPageScroll_snd.
  - rewrite _onPageScrollStateChanged_snd. cbn [this].
    by destruct (callback_throws _).
  - by rewrite _onPageSelected_this.
  - by rewrite setPage_run.
  - by rewrite setPageWithoutAnimation_run.
  - by rewrite setScrollEnabled_run.
  - reflexivity.
  - reflexivity.
  - reflexivity.
Qed.

(** The dragging flag after one action. *)
Lemma perform_isScrolling (a : Action) (rt : Runtime) :
  isScrolling (this (snd (perform a rt))) =
  match a with
  | OnPageScrollStateChanged e =>
      if callback_throws (onPageScrollStateChanged (props (this rt)))
      then isScrolling (this rt)
      else bool_decide (pageScrollState (nativeEvent e) = dragging)
  | _ => isScrolling (this rt)
  end.
Proof.
  destruct a; [cbn [perform]; rewrite ?snd_discard..|rewrite perform_Render].
  - by rewrite _onPageScroll_snd.
  - rewrite _onPageScrollStateChanged_snd. cbn [this].
    by destruct (callback_throws _).
  - by rewrite _onPageSelected_this.
  - by rewrite setPage_run.
  - by rewrite setPageWithoutAnimation_run.
  - by rewrite setScrollEnabled_run.
  - reflexivity.
  - reflexivity.
  - reflexivity.
Qed.

Lemma callbacks_return_cons (a : Action) (acts : list Action)
  (p : PagerViewProps) :
  callbacks_return (a :: acts) p = true ->
  callbacks_return [a] p = true
  /\ callbacks_return acts (last_props [a] p) = true.
Proof.
  destruct a; cbn [callbacks_return last_props]; rewrite ?andb_true_r;
    try (intros H; apply andb_prop in H); done.
Qed.

Lemma run_isScrolling (acts : list Action) (rt : Runtime)
  (acc : option PageScrollState) :
  callbacks_return acts (props (this rt)) = true ->
  (isScrolling (this rt) = true <-> acc = Some dragging) ->
  (isScrolling (this (run acts rt)) = true
   <-> last_scroll_state acts acc = Some dragging).
Proof.
  revert rt acc. induction acts as [|a acts IH]; intros rt acc Hret Hacc.
  - exact Hacc.
  - apply callbacks_return_cons in Hret as [Ha Hrest].
    rewrite <- perform_props in Hrest.
    cbn [run]. pose proof (perform_isScrolling a rt) as Hflag.
    destruct a; cbn [last_scroll_state]; apply IH; try exact Hrest;
      rewrite Hflag; try exact Hacc.
    cbn [callbacks_return] in Ha. rewrite andb_true_r in Ha.
    apply negb_true_iff in Ha. rewrite Ha.
    rewrite bool_decide_eq_true. split; congruence.
Qed.

(** ** Construction and lifetime *)

Lemma constructor_run (p : PagerViewProps) (w : World) :
  constructor p w =
  {| this := {| props := p; isScrolling := false; pagerView := None;
                store := Some (length (heap w)) |};
     world :=
       {| env := env w;
          heap := heap w
            ++ [ {| state := initial_state (default 0 (initialPage p));
                    listeners := [] |} ];
          log := log w
            ++ [StoreCreated (length (heap w))
                  (default 0 (initialPage p))] |} |}.
Proof. reflexivity. Qed.

(** Every container that has been constructed, whatever happened to it
    since, has a live store: the premises of the selection theorems hold
    throughout its lifetime. *)
Lemma constructed_store_live (p : PagerViewProps) (w : World)
  (acts : list Action) :
  let rt := run acts (constructor p w) in
  exists s, store (this rt) = Some (length (heap w))
            /\ heap (world rt) !! length (heap w) = Some s.
Proof.
  intros rt. subst rt.
  destruct (run_same_store acts (constructor p w)) as (Hs & Hl & _).
  destruct (lookup_lt_is_Some_2 (heap (world (run acts (constructor p w))))
              (length (heap w))) as [s Hlook].
  { rewrite Hl, constructor_run. cbn [world heap].
    rewrite length_app. cbn [length]. lia. }
  exists s. by split.
Qed.

(** C7. Constructing a container creates exactly one store: a fresh one,
    seeded with the [initialPage] prop when it is supplied and with 0 when
    it is absent, and kept in the [store] field.  Whatever happens to the
    container afterwards (events, commands, predicate queries, ref
    changes, renders with new props), that field keeps pointing at the
    same store and no store is created. *)
Theorem constructor_creates_one_store (p : PagerViewProps) (w : World) :
  let rt := constructor p w in
  let r := length (heap w) in
  store (this rt) = Some r
  /\ heap (world rt) =
     heap w ++ [ {| state := initial_state
                               (match initialPage p with
                                | Some i => i
                                | None => 0
                                end);
                    listeners := [] |} ]
  /\ page <$> fst (getState r rt) =
     Some (match initialPage p with Some i => i | None => 0 end)
  /\ count_effects is_created (log (world rt))
     = S (count_effects is_created (log w))
  /\ (forall acts : list Action,
        let later := run acts rt in
        store (this later) = Some r
        /\ length (heap (world later)) = S (length (heap w))
        /\ count_effects is_created (log (world later))
           = S (count_effects is_created (log w))).
Proof.
  intros rt r.
  assert (Hcount : count_effects is_created (log (world rt))
                   = S (count_effects is_created (log w))).
  { subst rt. rewrite constructor_run. cbn [world log].
    rewrite count_effects_app. cbn. lia. }
  assert (Hlen : length (heap (world rt)) = S (length (heap w))).
  { subst rt. rewrite constructor_run. cbn [world heap].
    rewrite length_app. cbn. lia. }
  split; [reflexivity|]. split.
  { subst rt. rewrite constructor_run. cbn [world heap].
    by destruct (initialPage p). }
  split.
  - subst rt r. rewrite constructor_run. unfold getState. step_monad.
    rewrite lookup_app_r by lia. rewrite Nat.sub_diag. cbn.
    by destruct (initialPage p).
  - split; [exact Hcount|]. intros acts later. subst later.
    destruct (run_same_store acts rt) as (Hs & Hl & Hc).
    rewrite Hs, Hl, Hc, Hlen, Hcount. by repeat split.
Qed.

(** C9. The dragging flag of a newly constructed container is false, so
    the responder-capture predicate returns false before any
    [onPageScrollStateChanged] event; an event whose state is ['idle'] or
    ['settling'] makes the predicate return false; and over the whole
    lifetime the predicate returns true exactly when the latest
    [onPageScrollStateChanged] event so far exists and is ['dragging'].
    The last two hold when the callbacks called on the way return: the
    flag is set after the forwarding. *)
Theorem dragging_flag_over_lifetime (p : PagerViewProps) (w : World) :
  fst (_onMoveShouldSetResponderCapture (constructor p w)) = false
  /\ (forall rt e,
        callback_throws (onPageScrollStateChanged (props (this rt))) = false ->
        pageScrollState (nativeEvent e) = idle
        \/ pageScrollState (nativeEvent e) = settling ->
        fst (_onMoveShouldSetResponderCapture
               (snd (_onPageScrollStateChanged e rt))) = false)
  /\ (forall acts : list Action,
        callbacks_return acts p = true ->
        (fst (_onMoveShouldSetResponderCapture (run acts (constructor p w)))
         = true
         <-> last_scroll_state acts None = Some dragging)).
Proof.
  split; [reflexivity|]. split.
  - intros rt e Hcb He. rewrite _onPageScrollStateChanged_snd, Hcb.
    cbn. apply bool_decide_eq_false. destruct He as [He|He]; by rewrite He.
  - intros acts Hret.
    change (fst (_onMoveShouldSetResponderCapture
                   (run acts (constructor p w))))
      with (isScrolling (this (run acts (constructor p w)))).
    apply run_isScrolling; [exact Hret|]. split; discriminate.
Qed.

(** A drag that begins and settles on a mounted sample container. *)
Lemma dragging_flag_over_lifetime_witness :
  let drag := {| nativeEvent := {| pageScrollState := dragging |} |} in
  let settle := {| nativeEvent := {| pageScrollState := settling |} |} in
  let rt := constructor sample_props sample_world in
  fst (_onMoveShouldSetResponderCapture
         (run [OnPageScrollStateChanged drag; SetPage 1] rt)) = true
  /\ fst (_onMoveShouldSetResponderCapture
            (run [OnPageScrollStateChanged drag; SetPage 1;
                  OnPageScrollStateChanged settle] rt)) = false.
Proof.
  cbv zeta.
  pose proof (dragging_flag_over_lifetime sample_props sample_world)
    as (_ & _ & H).
  split.
  - by apply (H [OnPageScrollStateChanged
                   {| nativeEvent := {| pageScrollState := dragging |} |};
                 SetPage 1] eq_refl).
  - reflexivity.
Defined.

(** ** The examples of the specification, evaluated *)

Example selected_first_of_five :
  fst (getState 0%nat (snd (_onPageSelected (selected 0) sample_runtime)))
  = Some {| page := 0; hasNextPage := true; hasPreviousPage := false |}.
Proof. reflexivity. Qed.

Example selected_last_of_five :
  fst (getState 0%nat (snd (_onPageSelected (selected 4) sample_runtime)))
  = Some {| page := 4; hasNextPage := false; hasPreviousPage := true |}.
Proof. reflexivity. Qed.

Example setPage_before_mount :
  setPage 3 (constructor sample_props sample_world)
  = (tt, constructor sample_props sample_world).
Proof. reflexivity. Qed.

Example drag_then_settle :
  let drag := {| nativeEvent := {| pageScrollState := dragging |} |} in
  let settle := {| nativeEvent := {| pageScrollState := settling |} |} in
  let rt := constructor sample_props sample_world in
  map (fun acts => fst (_onMoveShouldSetResponderCapture (run acts rt)))
    [ []; [OnPageScrollStateChanged drag];
      [OnPageScrollStateChanged drag; SetPage 1];
      [OnPageScrollStateChanged drag; OnPageScrollStateChanged settle] ]
  = [false; true; true; false].
Proof. reflexivity. Qed.

Example mounted_lifetime_log :
  log (world (run [ Ref (Some 7%nat); SetPage 1; OnPageSelected (selected 1);
                    Ref None; SetPage 2 ]
                (constructor sample_props sample_world)))
  = [ StoreCreated 1%nat 0;
      CommandSetPage 7%nat 1;
      UserOnPageSelected (returning 23) (selected 1);
      StoreSetState 1%nat (selection_update 1 5) ].
Proof. reflexivity. Qed.

Example throwing_scroll_callback_skips_dismissal :
  let e := {| nativeEvent := {| scroll_position := 1; offset := 0 |} |} in
  let p := {| initialPage := None; layoutDirection := None;
              keyboardDismissMode := Some on_drag;
              onPageScroll := Some (throwing 21);
              onPageScrollStateChanged := None; onPageSelected := None;
              children := five_pages |} in
  _onPageScroll e (constructor p sample_world)
  = (Threw, logged [UserOnPageScroll (throwing 21) e]
              (constructor p sample_world)).
Proof. reflexivity. Qed.

(** * Further properties of the component *)

(** ** Layout direction *)

(** X1. The direction computed by [deducedLayoutDirection], and so the one
    [render] hands to the native view, is always ['ltr'] or ['rtl']: the
    ['locale'] sentinel never reaches the native view. *)
Theorem native_direction_never_locale (rt : Runtime) :
  let d := native_layoutDirection (snd (fst (render rt))) in
  (d = ltr \/ d = rtl)
  /\ d <> locale
  /\ fst (deducedLayoutDirection rt) = d.
Proof.
  intros d. subst d. unfold render, deducedLayoutDirection. step_monad.
  destruct (layoutDirection (props (this rt))) as [[]|]; step_monad;
    try destruct (I18nManager_isRTL (env (world rt)));
    (split; [auto|]); (split; [discriminate|]); reflexivity.
Qed.

(** ** Render *)

(** X2. [render] changes nothing in the container or around it (no field,
    no store, no outgoing call) and publishes the [store] field in the
    context value, so that over the whole lifetime of a container every
    render publishes the store created by its constructor. *)
Theorem render_publishes_store :
  (forall rt : Runtime,
     snd (render rt) = rt
     /\ ctx_store (fst (fst (render rt))) = store (this rt))
  /\ (forall (p : PagerViewProps) (w : World) (acts : list Action),
        ctx_store (fst (fst (render (run acts (constructor p w)))))
        = Some (length (heap w))).
Proof.
  assert (Hr : forall rt : Runtime,
     snd (render rt) = rt
     /\ ctx_store (fst (fst (render rt))) = store (this rt)).
  { intros rt. unfold render, deducedLayoutDirection. step_monad.
    destruct (layoutDirection (props (this rt))) as [[]|]; step_monad;
      by repeat split. }
  split; [exact Hr|]. intros p w acts.
  destruct (Hr (run acts (constructor p w))) as (_ & ->).
  by destruct (run_same_store acts (constructor p w)) as (-> & _).
Qed.

(** ** What one action does to each part of the container *)

Lemma perform_pagerView (a : Action) (rt : Runtime) :
  pagerView (this (snd (perform a rt))) =
  match a with
  | Ref h => h
  | _ => pagerView (this rt)
  end.
Proof.
  destruct a; [cbn [perform]; rewrite ?snd_discard..|rewrite perform_Render].
  - by rewrite _onPageScroll_snd.
  - rewrite _onPageScrollStateChanged_snd. cbn [this].
    by destruct (callback_throws _).
  - by rewrite _onPageSelected_this.
  - by rewrite setPage_run.
  - by rewrite setPageWithoutAnimation_run.
  - by rewrite setScrollEnabled_run.
  - reflexivity.
  - reflexivity.
  - reflexivity.
Qed.

Lemma perform_heap (a : Action) (rt : Runtime) :
  is_selection a = false ->
  heap (world (snd (perform a rt))) = heap (world rt).
Proof.
  destruct a; cbn [is_selection]; intros Ha; try discriminate;
    [cbn [perform]; rewrite ?snd_discard..|rewrite perform_Render].
  - by rewrite _onPageScroll_snd.
  - by rewrite _onPageScrollStateChanged_snd.
  - by rewrite setPage_run.
  - by rewrite setPageWithoutAnimation_run.
  - by rewrite setScrollEnabled_run.
  - reflexivity.
  - reflexivity.
  - reflexivity.
Qed.

(** A store other than the container's own is out of reach of every
    action. *)
Lemma perform_other_store (a : Action) (rt : Runtime) (i : StoreRef) :
  store (this rt) <> Some i ->
  heap (world (snd (perform a rt))) !! i = heap (world rt) !! i.
Proof.
  intros Hi. destruct (is_selection a) eqn:Ha;
    [|by rewrite perform_heap].
  destruct a; try discriminate. cbn [perform]. rewrite snd_discard.
  rewrite _onPageSelected_general. cbv zeta.
  destruct (callback_throws _); [reflexivity|].
  destruct (store (this rt)) as [r|]; [|reflexivity].
  rewrite setState_run. cbn [snd logged this world heap with_log].
  destruct (heap (world rt) !! r) as [s|]; [|reflexivity].
  cbn [world heap]. apply list_lookup_insert_ne. congruence.
Qed.

(** The container's own store after one action whose callback, if it
    calls one, returns. *)
Lemma perform_own_store (a : Action) (rt : Runtime) (r : StoreRef)
  (s : PagerStore) :
  store (this rt) = Some r ->
  heap (world rt) !! r = Some s ->
  callbacks_return [a] (props (this rt)) = true ->
  heap (world (snd (perform a rt))) !! r =
  Some {| state := track [a] (props (this rt)) (state s);
          listeners := listeners s |}.
Proof.
  intros Hr Hs Hret. destruct (is_selection a) eqn:Ha.
  - destruct a; try discriminate. cbn [perform track]. rewrite snd_discard.
    cbn [callbacks_return] in Hret. rewrite andb_true_r in Hret.
    apply negb_true_iff in Hret.
    rewrite (_onPageSelected_run rt e r s Hr Hs Hret). cbn [snd world heap].
    apply list_lookup_insert_eq. by apply lookup_lt_Some with s.
  - rewrite perform_heap by done. rewrite Hs.
    destruct a; try discriminate; by destruct s.
Qed.

(** The container's own store after one action, whatever its callback
    does: as it was, or holding the state of a selection. *)
Lemma perform_own_store_cases (a : Action) (rt : Runtime) (r : StoreRef)
  (s : PagerStore) :
  store (this rt) = Some r ->
  heap (world rt) !! r = Some s ->
  heap (world (snd (perform a rt))) !! r = Some s
  \/ exists p n,
       heap (world (snd (perform a rt))) !! r =
       Some {| state := selected_state p n; listeners := listeners s |}.
Proof.
  intros Hr Hs. destruct (is_selection a) eqn:Ha;
    [|left; by rewrite perform_heap].
  destruct a; try discriminate. cbn [perform]. rewrite snd_discard.
  destruct (callback_throws (onPageSelected (props (this rt)))) eqn:Hcb.
  - left. by rewrite (_onPageSelected_thrown rt e Hcb).
  - right. eexists _, _.
    rewrite (_onPageSelected_run rt e r s Hr Hs Hcb). cbn [snd world heap].
    apply list_lookup_insert_eq. by apply lookup_lt_Some with s.
Qed.

Lemma track_cons (a : Action) (acts : list Action) (p : PagerViewProps)
  (s : PageSyncState) :
  track (a :: acts) p s = track acts (last_props [a] p) (track [a] p s).
Proof. by destruct a. Qed.

Lemma last_props_cons (a : Action) (acts : list Action)
  (p : PagerViewProps) :
  last_props (a :: acts) p = last_props acts (last_props [a] p).
Proof. by destruct a. Qed.

Lemma run_own_store (acts : list Action) (rt : Runtime) (r : StoreRef)
  (s : PagerStore) :
  store (this rt) = Some r ->
  heap (world rt) !! r = Some s ->
  callbacks_return acts (props (this rt)) = true ->
  heap (world (run acts rt)) !! r =
    Some {| state := track acts (props (this rt)) (state s);
            listeners := listeners s |}
  /\ props (this (run acts rt)) = last_props acts (props (this rt)).
Proof.
  revert rt s. induction acts as [|a acts IH]; intros rt s Hr Hs Hret.
  - cbn [run track last_props]. split; [|reflexivity]. by destruct s.
  - apply callbacks_return_cons in Hret as [Ha Hrest].
    cbn [run]. rewrite (track_cons a acts), (last_props_cons a acts).
    pose proof (perform_own_store a rt r s Hr Hs Ha) as Hown.
    destruct (perform_same_store a rt) as (Hst & _).
    rewrite Hr in Hst. rewrite <- perform_props in Hrest.
    destruct (IH _ _ Hst Hown Hrest) as [Hcell Hprops].
    rewrite perform_props in Hcell, Hprops.
    cbn [state listeners] in Hcell. by split.
Qed.

Lemma run_other_store (acts : list Action) (rt : Runtime) (i : StoreRef) :
  store (this rt) <> Some i ->
  heap (world (run acts rt)) !! i = heap (world rt) !! i.
Proof.
  revert rt. induction acts as [|a acts IH]; intros rt Hi; [done|].
  cbn [run]. destruct (perform_same_store a rt) as (Hst & _).
  rewrite IH by (by rewrite Hst). by apply perform_other_store.
Qed.

Lemma run_pagerView (acts : list Action) (rt : Runtime) :
  pagerView (this (run acts rt)) = last_ref acts (pagerView (this rt)).
Proof.
  revert rt. induction acts as [|a acts IH]; intros rt; [done|].
  cbn [run]. rewrite IH, perform_pagerView. by destruct a.
Qed.

Lemma run_previous_consistent (acts : list Action) (rt : Runtime)
  (r : StoreRef) (s : PagerStore) :
  store (this rt) = Some r ->
  heap (world rt) !! r = Some s ->
  previous_consistent (state s) ->
  exists s', heap (world (run acts rt)) !! r = Some s'
             /\ previous_consistent (state s').
Proof.
  revert rt s. induction acts as [|a acts IH]; intros rt s Hr Hs Hc.
  - exists s. by split.
  - cbn [run]. destruct (perform_same_store a rt) as (Hst & _).
    rewrite Hr in Hst.
    destruct (perform_own_store_cases a rt r s Hr Hs) as [Hsame|(p & n & Hsel)].
    + by apply (IH _ s).
    + by apply (IH _ _ Hst Hsel).
Qed.

(** ** Commands and the ref *)

(** X3. Over the lifetime of a container the three commands address the
    handle delivered by the latest ref callback: before any ref has been
    delivered, and after the ref has been released with null, they do
    nothing; otherwise they issue their command on that latest handle and
    on no earlier one. *)
Theorem commands_reach_latest_ref (p : PagerViewProps) (w : World)
  (acts : list Action) (n : Z) (b : bool) :
  let now := run acts (constructor p w) in
  let target := last_ref acts None in
  setPage n now =
    (tt, logged (match target with
                 | Some h => [CommandSetPage h n]
                 | None => []
                 end) now)
  /\ setPageWithoutAnimation n now =
    (tt, logged (match target with
                 | Some h => [CommandSetPageWithoutAnimation h n]
                 | None => []
                 end) now)
  /\ setScrollEnabled b now =
    (tt, logged (match target with
                 | Some h => [CommandSetScrollEnabledImperatively h b]
                 | None => []
                 end) now).
Proof.
  intros now target.
  assert (Hpv : pagerView (this now) = target).
  { subst now target. by rewrite run_pagerView. }
  rewrite setPage_run, setPageWithoutAnimation_run, setScrollEnabled_run.
  rewrite Hpv. by repeat split.
Qed.

(** ** Who writes the store *)

(** X4. Among all the things that can happen to a container, only a
    selection event writes to a store: a sequence of scroll events,
    commands, predicate queries, ref changes and renders with new props
    (new children included) leaves every store as it was.  In particular
    [setPage] does not move [page] by itself. *)
Theorem only_selection_writes_store (rt : Runtime) (acts : list Action) :
  forallb (fun a => negb (is_selection a)) acts = true ->
  heap (world (run acts rt)) = heap (world rt).
Proof.
  revert rt. induction acts as [|a acts IH]; intros rt Hacts; [done|].
  cbn [forallb] in Hacts. apply andb_prop in Hacts as [Ha Hacts].
  cbn [run]. rewrite IH by done. apply perform_heap.
  by apply negb_true_iff.
Qed.

(** A container is mounted, told to go to page 3 and rendered with two
    children: the store still holds what the last selection wrote. *)
Lemma only_selection_writes_store_witness :
  let before := snd (_onPageSelected (selected 2) sample_runtime) in
  forallb (fun a => negb (is_selection a)) quiet_actions = true
  /\ fst (getState 0%nat (run quiet_actions before))
     = Some {| page := 2; hasNextPage := true; hasPreviousPage := true |}.
Proof.
  cbv zeta. split; [reflexivity|]. unfold getState. step_monad.
  rewrite (only_selection_writes_store
             (snd (_onPageSelected (selected 2) sample_runtime))
             quiet_actions eq_refl).
  reflexivity.
Defined.

(** X5. The state of a container's store after any sequence of actions
    whose callbacks return is the one written by the latest selection
    event, computed from that event's position and the children of the
    props in force when it arrived; with no selection it is the state the
    store had at the start.  Later renders with other children do not
    recompute [hasNextPage].  The container never changes the subscribers
    of its store. *)
Theorem store_follows_latest_selection (rt : Runtime) (acts : list Action)
  (r : StoreRef) (s : PagerStore) :
  store (this rt) = Some r ->
  heap (world rt) !! r = Some s ->
  callbacks_return acts (props (this rt)) = true ->
  fst (getState r (run acts rt))
    = Some (track acts (props (this rt)) (state s))
  /\ listeners <$> heap (world (run acts rt)) !! r = Some (listeners s).
Proof.
  intros Hr Hs Hret.
  destruct (run_own_store acts rt r s Hr Hs Hret) as [Hcell _].
  unfold getState. step_monad. by rewrite Hcell.
Qed.

(** Page 2 of 5 is selected, then the container is rendered with three
    children: [hasNextPage] is still the one computed with five. *)
Lemma store_follows_latest_selection_witness :
  heap (world sample_runtime) !! 0%nat
    = Some {| state := initial_state 0; listeners := [31; 32]%nat |}
  /\ callbacks_return busy_actions (props (this sample_runtime)) = true
  /\ fst (getState 0%nat (run busy_actions sample_runtime))
     = Some {| page := 2; hasNextPage := true; hasPreviousPage := true |}.
Proof.
  split; [reflexivity|]. split; [reflexivity|].
  exact (proj1 (store_follows_latest_selection sample_runtime busy_actions
                  0%nat
                  {| state := initial_state 0; listeners := [31; 32]%nat |}
                  eq_refl eq_refl eq_refl)).
Defined.

(** X6. If [hasPreviousPage] agrees with [page] in a container's store
    ([hasPreviousPage] is true exactly when [page > 0]), it still does
    after any sequence of actions, whatever the callbacks do: the two are
    only ever written together. *)
Theorem previous_flag_stays_consistent (rt : Runtime) (acts : list Action)
  (r : StoreRef) (s : PagerStore) :
  store (this rt) = Some r ->
  heap (world rt) !! r = Some s ->
  previous_consistent (state s) ->
  exists st, fst (getState r (run acts rt)) = Some st
             /\ hasPreviousPage st = (0 <? page st).
Proof.
  intros Hr Hs Hc.
  destruct (run_previous_consistent acts rt r s Hr Hs Hc) as (s' & Hcell & Hc').
  exists (state s'). split; [|exact Hc'].
  unfold getState. step_monad. by rewrite Hcell.
Qed.

(** A newly constructed container, whatever happens to it. *)
Lemma previous_flag_stays_consistent_witness :
  let rt := constructor sample_props sample_world in
  previous_consistent (initial_state 0)
  /\ exists st, fst (getState 1%nat (run busy_actions rt)) = Some st
                /\ hasPreviousPage st = (0 <? page st).
Proof.
  cbv zeta. split; [reflexivity|].
  exact (previous_flag_stays_consistent
           (constructor sample_props sample_world) busy_actions 1%nat
           {| state := initial_state 0; listeners := [] |}
           eq_refl eq_refl eq_refl).
Defined.

(** X7. Two containers constructed one after the other own different
    stores, and nothing that happens to the second one (selection events
    included) changes a store that is not its own: the first container's
    store still holds its initial state. *)
Theorem containers_do_not_share_stores (pA pB : PagerViewProps) (w : World)
  (acts : list Action) :
  let rtA := constructor pA w in
  let rtB := constructor pB (world rtA) in
  store (this rtA) <> store (this rtB)
  /\ (forall i, store (this rtB) <> Some i ->
        heap (world (run acts rtB)) !! i = heap (world rtB) !! i)
  /\ (forall rA, store (this rtA) = Some rA ->
        fst (getState rA {| this := this rtA; world := world (run acts rtB) |})
        = fst (getState rA rtA)).
Proof.
  intros rtA rtB.
  assert (Hne : store (this rtA) <> store (this rtB)).
  { subst rtA rtB. rewrite !constructor_run. cbn [this world heap store].
    rewrite length_app. cbn [length]. intros [=]. lia. }
  split; [exact Hne|]. split.
  - intros i Hi. by apply run_other_store.
  - intros rA HrA. unfold getState. step_monad.
    rewrite run_other_store by congruence.
    subst rtB. rewrite (constructor_run pB). cbn [world heap].
    rewrite lookup_app_l; [reflexivity|].
    subst rtA. rewrite constructor_run in HrA |- *.
    cbn [this store world heap] in HrA |- *. injection HrA as <-.
    rewrite length_app. cbn [length]. lia.
Qed.

(** ** What reaches the application and the keyboard *)

Lemma filter_user_call_notifications (s : PageSyncState)
  (ls : list Listener) :
  List.filter is_user_call (map (fun l => ListenerNotified l s) ls) = [].
Proof. induction ls as [|l ls IH]; [done|exact IH]. Qed.

Lemma filter_user_call_user_call (p : PagerViewProps) (ev : NativeEvent) :
  List.filter is_user_call (user_call p ev) = user_call p ev.
Proof.
  destruct ev; cbn [user_call];
    match goal with |- context [forwarded ?cb _] => by destruct cb end.
Qed.

Lemma deliver_user_calls (ev : NativeEvent) (rt : Runtime) :
  List.filter is_user_call (log (world (snd (perform (deliver ev) rt))))
  = List.filter is_user_call (log (world rt))
    ++ user_call (props (this rt)) ev.
Proof.
  pose proof (filter_user_call_user_call (props (this rt)) ev) as Hu.
  destruct ev as [e|e|e]; cbn [deliver perform user_call] in *;
    rewrite snd_discard.
  - rewrite _onPageScroll_snd. cbn [snd logged world with_log log].
    rewrite !List.filter_app, Hu. unfold dismissal.
    destruct (callback_throws _); try case_bool_decide;
      cbn [List.filter is_user_call]; by rewrite app_nil_r.
  - rewrite _onPageScrollStateChanged_snd. cbn [snd world with_log log].
    by rewrite List.filter_app, Hu.
  - rewrite _onPageSelected_general. cbv zeta.
    destruct (callback_throws _);
      [cbn [logged world with_log log]; by rewrite List.filter_app, Hu|].
    destruct (store (this rt)) as [r|].
    + rewrite setState_run. cbn [snd logged this world heap with_log log].
      destruct (heap (world rt) !! r) as [s|];
        cbn [logged world with_log log]; rewrite !List.filter_app, ?Hu;
        rewrite ?filter_user_call_notifications; cbn [List.filter is_user_call];
        by rewrite ?app_nil_r.
    + cbn [logged world with_log log]. by rewrite List.filter_app, Hu.
Qed.

Lemma deliver_props (ev : NativeEvent) (rt : Runtime) :
  props (this (snd (perform (deliver ev) rt))) = props (this rt).
Proof. rewrite perform_props. by destruct ev. Qed.

(** X8. The calls made to the application during a sequence of native
    events are exactly the events themselves, each handed once to the
    callback of its own kind when that prop is supplied, in the order in
    which the events arrived: no event is dropped, repeated, reordered or
    handed to a callback of another kind, whether the callbacks return or
    throw. *)
Theorem events_forwarded_in_order (rt : Runtime) (evs : list NativeEvent) :
  List.filter is_user_call (log (world (run (map deliver evs) rt)))
  = List.filter is_user_call (log (world rt))
    ++ concat (map (user_call (props (this rt))) evs).
Proof.
  revert rt. induction evs as [|ev evs IH]; intros rt.
  - cbn. by rewrite app_nil_r.
  - cbn [map run concat]. rewrite IH, deliver_user_calls, deliver_props.
    by rewrite app_assoc.
Qed.

Lemma scrolls_run (es : list (NativeSyntheticEvent OnPageScrollEventData))
  (rt : Runtime) :
  callback_throws (onPageScroll (props (this rt))) = false ->
  let after := run (map OnPageScroll es) rt in
  this after = this rt
  /\ env (world after) = env (world rt)
  /\ count_effects is_dismiss (log (world after))
     = (count_effects is_dismiss (log (world rt))
        + length es
          * length (dismissal (Platform_OS (env (world rt)))
                      (keyboardDismissMode (props (this rt)))))%nat.
Proof.
  revert rt. induction es as [|e es IH]; intros rt Hcb.
  - cbn. repeat split. lia.
  - cbv zeta in *. cbn [map run perform]. rewrite snd_discard.
    assert (Hstep : snd (_onPageScroll e rt) =
              logged (forwarded (onPageScroll (props (this rt)))
                        (fun f => UserOnPageScroll f e)
                      ++ dismissal (Platform_OS (env (world rt)))
                           (keyboardDismissMode (props (this rt)))) rt).
    { by rewrite _onPageScroll_snd, Hcb. }
    destruct (IH (snd (_onPageScroll e rt))) as (Ht & He & Hc).
    { by rewrite Hstep. }
    rewrite Ht, He, Hc. rewrite Hstep.
    cbn [snd logged this world with_log env log].
    repeat split. rewrite !count_effects_app. unfold dismissal.
    destruct (onPageScroll (props (this rt))); case_bool_decide;
      cbn [forwarded count_effects List.filter is_dismiss length]; lia.
Qed.

(** X9. With an [onPageScroll] callback that returns, or none, the
    keyboard is dismissed once for every scroll event that arrives on
    Android under [keyboardDismissMode = 'on-drag'], however many events a
    drag produces, and never on another platform or under another mode. *)
Theorem keyboard_dismissed_on_every_scroll (rt : Runtime)
  (es : list (NativeSyntheticEvent OnPageScrollEventData)) :
  callback_throws (onPageScroll (props (this rt))) = false ->
  count_effects is_dismiss (log (world (run (map OnPageScroll es) rt)))
  = (count_effects is_dismiss (log (world rt))
     + if bool_decide (Platform_OS (env (world rt)) = android
                       /\ keyboardDismissMode (props (this rt))
                          = Some on_drag)
       then length es else 0)%nat.
Proof.
  intros Hcb. destruct (scrolls_run es rt Hcb) as (_ & _ & ->).
  unfold dismissal. case_bool_decide; cbn [length]; lia.
Qed.

(** Three scroll events of one drag on the sample container. *)
Lemma keyboard_dismissed_on_every_scroll_witness :
  count_effects is_dismiss
    (log (world (run (map OnPageScroll three_scrolls) sample_runtime)))
  = 3%nat.
Proof.
  exact (keyboard_dismissed_on_every_scroll sample_runtime three_scrolls
           eq_refl).
Defined.

Lemma filter_command_notifications (s : PageSyncState)
  (ls : list Listener) :
  List.filter is_command (map (fun l => ListenerNotified l s) ls) = [].
Proof. induction ls as [|l ls IH]; [done|exact IH]. Qed.

Lemma filter_command_user_call (p : PagerViewProps) (ev : NativeEvent) :
  List.filter is_command (user_call p ev) = [].
Proof.
  destruct ev; cbn [user_call];
    match goal with |- context [forwarded ?cb _] => by destruct cb end.
Qed.

Lemma deliver_commands (ev : NativeEvent) (rt : Runtime) :
  List.filter is_command (log (world (snd (perform (deliver ev) rt))))
  = List.filter is_command (log (world rt)).
Proof.
  pose proof (filter_command_user_call (props (this rt)) ev) as Hu.
  destruct ev as [e|e|e]; cbn [deliver perform user_call] in *;
    rewrite snd_discard.
  - rewrite _onPageScroll_snd. cbn [snd logged world with_log log].
    rewrite !List.filter_app, Hu. unfold dismissal.
    destruct (callback_throws _); try case_bool_decide;
      cbn [List.filter is_command]; by rewrite app_nil_r.
  - rewrite _onPageScrollStateChanged_snd. cbn [snd world with_log log].
    by rewrite List.filter_app, Hu, app_nil_r.
  - rewrite _onPageSelected_general. cbv zeta.
    destruct (callback_throws _);
      [cbn [logged world with_log log];
       by rewrite List.filter_app, Hu, app_nil_r|].
    destruct (store (this rt)) as [r|].
    + rewrite setState_run. cbn [snd logged this world heap with_log log].
      destruct (heap (world rt) !! r) as [s|];
        cbn [logged world with_log log]; rewrite !List.filter_app, ?Hu;
        rewrite ?filter_command_notifications; cbn [List.filter is_command];
        by rewrite ?app_nil_r.
    + cbn [logged world with_log log].
      by rewrite List.filter_app, Hu, app_nil_r.
Qed.

(** X10. Handling native events never issues a command to the native
    view, and never changes the handle the container holds: whatever
    events arrive, the commands on record are those that were there
    before. *)
Theorem events_issue_no_command (rt : Runtime) (evs : list NativeEvent) :
  let after := run (map deliver evs) rt in
  List.filter is_command (log (world after))
    = List.filter is_command (log (world rt))
  /\ pagerView (this after) = pagerView (this rt).
Proof.
  revert rt. induction evs as [|ev evs IH]; intros rt; [done|].
  cbv zeta in *. cbn [map run].
  destruct (IH (snd (perform (deliver ev) rt))) as [-> ->].
  rewrite deliver_commands, perform_pagerView. split; [done|].
  by destruct ev.
Qed.
